(** * lhotse/features/opensmile.py: the OpenSmile feature-extractor adapter

    A shallow embedding of [OpenSmileConfig] and [OpenSmileWrapper] and the
    properties of the adapter contract.

    Python values are untyped at run time, so a configuration field holds
    an arbitrary value of [pyval]; the annotations of the dataclass are not
    enforced by the interpreter and are not enforced here.  The interpreter
    is taken in its default mode ([__debug__] true): [assert] statements
    are executed. *)

From stdpp Require Import gmap strings list.
From Stdlib Require Import ZArith.

Local Open Scope string_scope.
Local Open Scope Z_scope.

(** ** Python values *)

(** The values a configuration field or a keyword argument can hold:
    [None], booleans, integers, strings, lists, tuples, dictionaries with
    string keys (their items in insertion order, the keys distinct) and the
    members of the engine's enumerations
    ([opensmile.FeatureSet.ComParE_2016] is
    [PEnum "FeatureSet" "ComParE_2016"]).  Floating-point numbers and
    instances of other classes are left out. *)
Unset Elimination Schemes.
Inductive pyval : Type :=
| PNone
| PBool (b : bool)
| PInt (n : Z)
| PStr (s : string)
| PList (xs : list pyval)
| PTuple (xs : list pyval)
| PDict (kvs : list (string * pyval))
| PEnum (cls member : string).
Set Elimination Schemes.

(** Induction over [pyval] with hypotheses for the values nested in lists,
    tuples and dictionaries. *)
Section pyval_induction.
Variable P : pyval -> Prop.
Hypothesis HNone : P PNone.
Hypothesis HBool : forall b, P (PBool b).
Hypothesis HInt : forall n, P (PInt n).
Hypothesis HStr : forall s, P (PStr s).
Hypothesis HList : forall xs, Forall P xs -> P (PList xs).
Hypothesis HTuple : forall xs, Forall P xs -> P (PTuple xs).
Hypothesis HDict : forall kvs, Forall (fun kv => P kv.2) kvs -> P (PDict kvs).
Hypothesis HEnum : forall c m, P (PEnum c m).

Fixpoint pyval_ind (v : pyval) : P v :=
  match v with
  | PNone => HNone
  | PBool b => HBool b
  | PInt n => HInt n
  | PStr s => HStr s
  | PList xs =>
      HList xs ((fix go (l : list pyval) : Forall P l :=
                   match l with
                   | [] => @List.Forall_nil _ P
                   | x :: l' => @List.Forall_cons _ P x l' (pyval_ind x) (go l')
                   end) xs)
  | PTuple xs =>
      HTuple xs ((fix go (l : list pyval) : Forall P l :=
                    match l with
                    | [] => @List.Forall_nil _ P
                    | x :: l' => @List.Forall_cons _ P x l' (pyval_ind x) (go l')
                    end) xs)
  | PDict kvs =>
      HDict kvs ((fix go (l : list (string * pyval))
                    : Forall (fun kv => P kv.2) l :=
                    match l with
                    | [] => @List.Forall_nil _ _
                    | kv :: l' =>
                        @List.Forall_cons _ (fun kv => P kv.2) kv l'
                          (pyval_ind kv.2) (go l')
                    end) kvs)
  | PEnum c m => HEnum c m
  end.
End pyval_induction.

(** [d.get(k)] on a dictionary kept as its item list. *)
Fixpoint dict_get (k : string) (kvs : list (string * pyval)) : option pyval :=
  match kvs with
  | [] => None
  | (k', v) :: rest => if String.eqb k k' then Some v else dict_get k rest
  end.

(** Python's [==] on values.  [bool] is a subclass of [int], so [True == 1];
    sequences compare element by element and only with their own type;
    dictionaries compare as mappings (same size, every key of the left
    bound to an equal value on the right); enumeration members compare by
    identity. *)
Fixpoint py_eq (a b : pyval) {struct a} : bool :=
  match a, b with
  | PNone, PNone => true
  | PBool x, PBool y => Bool.eqb x y
  | PBool x, PInt y => Z.b2z x =? y
  | PInt x, PBool y => x =? Z.b2z y
  | PInt x, PInt y => x =? y
  | PStr s, PStr t => String.eqb s t
  | PList xs, PList ys =>
      (fix seq_eq (l : list pyval) (r : list pyval) {struct l} : bool :=
         match l, r with
         | [], [] => true
         | x :: l', y :: r' => py_eq x y && seq_eq l' r'
         | _, _ => false
         end) xs ys
  | PTuple xs, PTuple ys =>
      (fix seq_eq (l : list pyval) (r : list pyval) {struct l} : bool :=
         match l, r with
         | [], [] => true
         | x :: l', y :: r' => py_eq x y && seq_eq l' r'
         | _, _ => false
         end) xs ys
  | PDict xs, PDict ys =>
      (length xs =? length ys)%nat &&
      (fix items_eq (l : list (string * pyval)) {struct l} : bool :=
         match l with
         | [] => true
         | (k, v) :: l' =>
             match dict_get k ys with
             | Some v' => py_eq v v' && items_eq l'
             | None => false
             end
         end) xs
  | PEnum c m, PEnum c' m' => String.eqb c c' && String.eqb m m'
  | _, _ => false
  end.

(** ** dataclasses.asdict *)

(** [dataclasses._asdict_inner] on a field value: lists and tuples are
    rebuilt from their converted elements, dictionaries from their converted
    items, and anything else is deep-copied. *)
Fixpoint asdict_inner (v : pyval) : pyval :=
  match v with
  | PList xs => PList (map asdict_inner xs)
  | PTuple xs => PTuple (map asdict_inner xs)
  | PDict kvs => PDict (map (fun kv => (kv.1, asdict_inner kv.2)) kvs)
  | PNone | PBool _ | PInt _ | PStr _ | PEnum _ _ => v
  end.

(** ** The configuration record *)

Record OpenSmileConfig : Type := mkOpenSmileConfig {
  feature_set : pyval;
  feature_level : pyval;
  options : pyval;
  loglevel : pyval;
  logfile : pyval;
  sampling_rate : pyval;
  channels : pyval;
  mixdown : pyval;
  resample : pyval;
  num_workers : pyval;
  verbose : pyval
}.

(** The fields of the dataclass in declaration order, each with its getter
    and its default. *)
Definition OpenSmileConfig_fields
  : list (string * (OpenSmileConfig -> pyval) * pyval) :=
  [ ("feature_set", feature_set, PStr "ComParE_2016");
    ("feature_level", feature_level, PStr "lld");
    ("options", options, PNone);
    ("loglevel", loglevel, PInt 2);
    ("logfile", logfile, PNone);
    ("sampling_rate", sampling_rate, PInt 16000);
    ("channels", channels, PInt 0);
    ("mixdown", mixdown, PBool false);
    ("resample", resample, PBool false);
    ("num_workers", num_workers, PInt 1);
    ("verbose", verbose, PBool false) ].

Definition field_names : list string :=
  map (fun f => f.1.1) OpenSmileConfig_fields.

(** ** Exceptions *)

(** An exception raised inside the third-party engine: its class and
    arguments.  The adapter never inspects it. *)
Record engine_exn : Type := EngineExn {
  exn_class : string;
  exn_args : list pyval
}.

(** How a call can fail.  [AssertionError] is a failed [assert] of this
    module, with the message of the statement if it has one; [Raised] is
    an exception coming out of the engine. *)
Inductive failure : Type :=
| AssertionError (msg : option string)
| TypeError
| AttributeError
| ModuleNotFoundError (module : string)
| Raised (e : engine_exn).

Abbreviation result A := (failure + A)%type.

(** ** to_dict and from_dict *)

(** [asdict(self)]: every field name bound to its converted value. *)
Definition to_dict (self : OpenSmileConfig) : gmap string pyval :=
  list_to_map
    (map (fun f => (f.1.1, asdict_inner (f.1.2 self))) OpenSmileConfig_fields).

(** A keyword argument of the generated [__init__]: the value passed, or
    the default of the field. *)
Definition kwarg (data : gmap string pyval) (k : string) (dflt : pyval)
  : pyval :=
  default dflt (data !! k).

(** The constructor called with the items of [data] as keyword arguments:
    a keyword that is not a field is a [TypeError]; every field takes the
    value passed for it or its default. *)
Definition from_dict (data : gmap string pyval) : result OpenSmileConfig :=
  if decide (map_Forall (fun k _ => k ∈ field_names) data) then
    inr {| feature_set := kwarg data "feature_set" (PStr "ComParE_2016");
           feature_level := kwarg data "feature_level" (PStr "lld");
           options := kwarg data "options" PNone;
           loglevel := kwarg data "loglevel" (PInt 2);
           logfile := kwarg data "logfile" PNone;
           sampling_rate := kwarg data "sampling_rate" (PInt 16000);
           channels := kwarg data "channels" (PInt 0);
           mixdown := kwarg data "mixdown" (PBool false);
           resample := kwarg data "resample" (PBool false);
           num_workers := kwarg data "num_workers" (PInt 1);
           verbose := kwarg data "verbose" (PBool false) |}
  else inl TypeError.

(** [OpenSmileConfig()]: every field at its default. *)
Definition OpenSmileConfig_default : OpenSmileConfig :=
  {| feature_set := PStr "ComParE_2016";
     feature_level := PStr "lld";
     options := PNone;
     loglevel := PInt 2;
     logfile := PNone;
     sampling_rate := PInt 16000;
     channels := PInt 0;
     mixdown := PBool false;
     resample := PBool false;
     num_workers := PInt 1;
     verbose := PBool false |}.

(** ** The interpreter state the module acts on *)

(** A class of the extractor registry, by what the registry and its users
    read from it: the class attributes [name] and [config_type]. *)
Record extractor_class : Type := ExtractorClass {
  qualname : string;
  name : string;
  config_type : string
}.

(** The part of the interpreter the module reads and writes: the modules
    the import system can find, the modules already imported
    ([sys.modules]) and the framework's registry of extractors. *)
Record pystate : Type := PyState {
  installed : gset string;
  sys_modules : gset string;
  FEATURE_EXTRACTORS : gmap string extractor_class
}.

(** Computations that read and write the interpreter state and may raise. *)
Definition Py (A : Type) : Type := pystate -> result A * pystate.

Definition ret {A} (a : A) : Py A := fun st => (inr a, st).

Definition raise {A} (e : failure) : Py A := fun st => (inl e, st).

Definition bind {A B} (m : Py A) (k : A -> Py B) : Py B :=
  fun st =>
    match m st with
    | (inr a, st') => k a st'
    | (inl e, st') => (inl e, st')
    end.

Declare Scope py_scope.
Delimit Scope py_scope with py.
Notation "x <- m ;; k" := (bind m (fun x => k))
  (at level 100, m at next level, right associativity) : py_scope.
Notation "m ;;; k" := (bind m (fun _ => k))
  (at level 100, right associativity) : py_scope.

(** The same for the calls that leave the interpreter state alone. *)
Definition result_bind {A B} (r : result A) (k : A -> result B) : result B :=
  match r with
  | inr a => k a
  | inl e => inl e
  end.

(** [assert c, msg]. *)
Definition py_assert (c : bool) (msg : option string) : Py unit :=
  if c then ret tt else raise (AssertionError msg).

(** [import m]: a module already in [sys.modules] is reused, a module the
    import system finds is loaded and recorded, any other is an error. *)
Definition import_module (m : string) : Py unit :=
  fun st =>
    if decide (m ∈ sys_modules st) then (inr tt, st)
    else if decide (m ∈ installed st) then
      (inr tt, {| installed := installed st;
                  sys_modules := {[ m ]} ∪ sys_modules st;
                  FEATURE_EXTRACTORS := FEATURE_EXTRACTORS st |})
    else (inl (ModuleNotFoundError m), st).

(** Modelled from the spec: [lhotse.utils.is_module_available] is not among
    the sources; the specification has it detect whether the package is
    installed, without importing it. *)
Definition is_module_available (m : string) : Py bool :=
  fun st => (inr (bool_decide (m ∈ installed st)), st).

(** Modelled from the spec: [lhotse.features.base.register_extractor] is not
    among the sources; the specification has the registry be a lookup table
    from the symbolic name of an extractor to its class, which the
    decorator fills in and hands the class back. *)
Definition register_extractor (cls : extractor_class) : Py extractor_class :=
  fun st =>
    (inr cls, {| installed := installed st;
                 sys_modules := sys_modules st;
                 FEATURE_EXTRACTORS := <[ name cls := cls ]> (FEATURE_EXTRACTORS st) |}).

(** Modelled from the spec: [lhotse.features.base.get_extractor_type] is not
    among the sources; framework code resolves an extractor by its name. *)
Definition get_extractor_type (n : string) (st : pystate)
  : option extractor_class :=
  FEATURE_EXTRACTORS st !! n.

(** The message of the two dependency assertions.  It contains the two
    double quotes of the source text. *)
Definition dquote : string := String (Ascii.ascii_of_nat 34) EmptyString.

Definition install_message : string :=
  "To use opensmile extractors, please " +:+ dquote +:+
  "pip install opensmile" +:+ dquote +:+ " first.".

(** ** The engine *)

(** The third-party engine, as the adapter uses it: the members of
    [opensmile.FeatureSet], the constructor [opensmile.Smile] called with
    keyword arguments, the two methods of its instances, and [to_numpy] of
    the table [process_signal] returns.  Nothing is assumed of them; each
    call returns or raises. *)
Class Engine : Type := {
  smile : Type;
  signal : Type;
  dataframe : Type;
  ndarray : Type;
  FeatureSet_members : list string;
  Smile : list (string * pyval) -> engine_exn + smile;
  Smile_feature_names : smile -> engine_exn + list string;
  Smile_process_signal : smile -> signal -> pyval -> engine_exn + dataframe;
  to_numpy : dataframe -> engine_exn + ndarray
}.

(** An exception of the engine passes through the adapter unchanged. *)
Definition engine_call {A} (r : engine_exn + A) : result A :=
  match r with
  | inl e => inl (Raised e)
  | inr a => inr a
  end.

Definition lift {A} (r : result A) : Py A := fun st => (r, st).

Section Adapter.
Context {engine : Engine}.

(** [OpenSmileConfig.featuresets_names]. *)
Definition featuresets_names : Py (list string) :=
  (ok <- is_module_available "opensmile" ;;
   py_assert ok (Some install_message) ;;;
   import_module "opensmile" ;;;
   ret FeatureSet_members)%py.

(** The class [OpenSmileWrapper] as the registry sees it. *)
Definition OpenSmileWrapper_class : extractor_class :=
  {| qualname := "OpenSmileWrapper";
     name := "opensmile-wrapper";
     config_type := "OpenSmileConfig" |}.

(** An instance of [OpenSmileWrapper].  [smileExtractor] is [None] in the
    class and is set by [__init__]. *)
Record OpenSmileWrapper : Type := mkOpenSmileWrapper {
  config : OpenSmileConfig;
  smileExtractor : option smile
}.

(** Modelled from the spec: [FeatureExtractor.__init__] of
    [lhotse.features.base] is not among the sources; the adapter is built
    from the configuration it is given and, given none, from an instance
    of its [config_type] with every default. *)
Definition FeatureExtractor_init (config : option OpenSmileConfig)
  : Py OpenSmileConfig :=
  ret (default OpenSmileConfig_default config).

(** The keyword arguments [__init__] passes to [opensmile.Smile], in the
    order of the call. *)
Definition Smile_kwargs (c : OpenSmileConfig) : list (string * pyval) :=
  [ ("feature_set", feature_set c);
    ("feature_level", feature_level c);
    ("sampling_rate", sampling_rate c);
    ("options", options c);
    ("loglevel", loglevel c);
    ("logfile", logfile c);
    ("channels", channels c);
    ("mixdown", mixdown c);
    ("resample", resample c);
    ("num_workers", num_workers c);
    ("verbose", verbose c) ].

(** [OpenSmileWrapper.__init__]. *)
Definition OpenSmileWrapper_init (config : option OpenSmileConfig)
  : Py OpenSmileWrapper :=
  (cfg <- FeatureExtractor_init config ;;
   ok <- is_module_available "opensmile" ;;
   py_assert ok (Some install_message) ;;;
   import_module "opensmile" ;;;
   e <- lift (engine_call (Smile (Smile_kwargs cfg))) ;;
   ret {| config := cfg; smileExtractor := Some e |})%py.

(** The property [frame_shift]. *)
Definition frame_shift (self : OpenSmileWrapper) : Z := 0.

(** [feature_dim]; [sr] is the argument [sampling_rate]. *)
Definition feature_dim (self : OpenSmileWrapper) (sr : pyval) : Z := 0.

(** [self.smileExtractor.m(...)]: [None] has no methods. *)
Definition with_extractor {A} (self : OpenSmileWrapper)
    (call : smile -> result A) : result A :=
  match smileExtractor self with
  | Some e => call e
  | None => inl AttributeError
  end.

Definition feature_names (self : OpenSmileWrapper) : result (list string) :=
  with_extractor self (fun e => engine_call (Smile_feature_names e)).

(** [extract]; [sr] is the argument [sampling_rate]. *)
Definition extract (self : OpenSmileWrapper) (samples : signal) (sr : pyval)
  : result ndarray :=
  if py_eq sr (sampling_rate (config self)) then
    with_extractor self (fun e =>
      result_bind (engine_call (Smile_process_signal e samples sr))
        (fun df => engine_call (to_numpy df)))
  else inl (AssertionError None).

(** What executing the module does: its imports, the two class
    definitions, and the registration of the adapter by the decorator. *)
Definition module_body : Py unit :=
  (import_module "dataclasses" ;;;
   import_module "typing" ;;;
   import_module "numpy" ;;;
   import_module "lhotse.features.base" ;;;
   import_module "lhotse.utils" ;;;
   _ <- register_extractor OpenSmileWrapper_class ;;
   ret tt)%py.
End Adapter.

Arguments OpenSmileWrapper : clear implicits.

(** ** A small engine and interpreter state to run the definitions on *)

Definition sample_engine : Engine :=
  {| smile := list (string * pyval);
     signal := list Z;
     dataframe := list (list Z);
     ndarray := list (list Z);
     FeatureSet_members := ["ComParE_2016"; "GeMAPSv01b"; "eGeMAPSv02"];
     Smile := fun kw => inr kw;
     Smile_feature_names := fun _ => inr ["F0final_sma"; "pcm_RMSenergy_sma"];
     Smile_process_signal := fun _ s sr => inr [s; s];
     to_numpy := fun df => inr df |}.

Definition sample_state : pystate :=
  {| installed := {[ "opensmile" ]};
     sys_modules := ∅;
     FEATURE_EXTRACTORS := ∅ |}.

Definition bare_state : pystate :=
  {| installed := ∅; sys_modules := ∅; FEATURE_EXTRACTORS := ∅ |}.

Definition loadable_state : pystate :=
  {| installed := {[ "dataclasses"; "typing"; "numpy";
                     "lhotse.features.base"; "lhotse.utils" ]};
     sys_modules := ∅;
     FEATURE_EXTRACTORS := ∅ |}.

Definition config_8k : OpenSmileConfig :=
  {| feature_set := PEnum "FeatureSet" "eGeMAPSv02";
     feature_level := PStr "func";
     options := PDict [("frameSize", PInt 25)];
     loglevel := PInt 2;
     logfile := PNone;
     sampling_rate := PInt 8000;
     channels := PList [PInt 0; PInt 1];
     mixdown := PBool true;
     resample := PBool false;
     num_workers := PNone;
     verbose := PBool false |}.

Definition config_any_rate : OpenSmileConfig :=
  {| feature_set := PStr "ComParE_2016";
     feature_level := PStr "lld";
     options := PNone;
     loglevel := PInt 2;
     logfile := PNone;
     sampling_rate := PNone;
     channels := PInt 0;
     mixdown := PBool false;
     resample := PBool false;
     num_workers := PInt 1;
     verbose := PBool false |}.

Definition sample_state_ready : pystate :=
  {| installed := {[ "opensmile" ]};
     sys_modules := {[ "opensmile" ]};
     FEATURE_EXTRACTORS := ∅ |}.

Definition loaded_state : pystate :=
  {| installed := {[ "dataclasses"; "typing"; "numpy";
                     "lhotse.features.base"; "lhotse.utils" ]};
     sys_modules := {[ "dataclasses"; "typing"; "numpy";
                       "lhotse.features.base"; "lhotse.utils" ]};
     FEATURE_EXTRACTORS := {[ "opensmile-wrapper" := OpenSmileWrapper_class ]} |}.

Definition wrapper_8k : OpenSmileWrapper sample_engine :=
  @mkOpenSmileWrapper sample_engine config_8k (Some (Smile_kwargs config_8k)).

Definition wrapper_any_rate : OpenSmileWrapper sample_engine :=
  @mkOpenSmileWrapper sample_engine config_any_rate
    (Some (Smile_kwargs config_any_rate)).


(** A second sample engine, one that refuses what it does not know: a
    feature set other than the default one, and an empty signal. *)
Definition strict_engine : Engine :=
  {| smile := list (string * pyval);
     signal := list Z;
     dataframe := list (list Z);
     ndarray := list (list Z);
     FeatureSet_members := ["ComParE_2016"];
     Smile := fun kw =>
       match dict_get "feature_set" kw with
       | Some (PStr "ComParE_2016") => inr kw
       | _ => inl (EngineExn "ValueError" [PStr "feature_set"])
       end;
     Smile_feature_names := fun _ => inr ["F0final_sma"];
     Smile_process_signal := fun _ s sr =>
       match s with
       | [] => inl (EngineExn "RuntimeError" [PStr "empty signal"])
       | _ => inr [s]
       end;
     to_numpy := fun df => inr df |}.

Definition partial_mapping : gmap string pyval :=
  {[ "sampling_rate" := PInt 8000; "mixdown" := PBool true ]}.

Definition config_partial : OpenSmileConfig :=
  {| feature_set := PStr "ComParE_2016";
     feature_level := PStr "lld";
     options := PNone;
     loglevel := PInt 2;
     logfile := PNone;
     sampling_rate := PInt 8000;
     channels := PInt 0;
     mixdown := PBool true;
     resample := PBool false;
     num_workers := PInt 1;
     verbose := PBool false |}.



Definition wrapper_strict : OpenSmileWrapper strict_engine :=
  @mkOpenSmileWrapper strict_engine OpenSmileConfig_default
    (Some (Smile_kwargs OpenSmileConfig_default)).

(** * Properties *)

(** ** Conversion to a dictionary and back *)

Lemma asdict_inner_id (v : pyval) : asdict_inner v = v.
Proof.
  induction v as [| | | |xs IH|xs IH|kvs IH|] using pyval_ind;
    simpl; try reflexivity; f_equal.
  - induction IH as [|x l Hx _ IHl]; simpl; [reflexivity|].
    by rewrite Hx, IHl.
  - induction IH as [|x l Hx _ IHl]; simpl; [reflexivity|].
    by rewrite Hx, IHl.
  - induction IH as [|[k x] l Hx _ IHl]; simpl in *; [reflexivity|].
    by rewrite Hx, IHl.
Qed.

Lemma to_dict_keys (c : OpenSmileConfig) :
  map_Forall (fun k _ => k ∈ field_names) (to_dict c).
Proof.
  unfold to_dict. intros k v Hkv.
  apply elem_of_list_to_map_2 in Hkv.
  apply list_elem_of_fmap in Hkv as [f [Hf Hin]].
  injection Hf as -> _.
  unfold field_names. apply list_elem_of_fmap. by exists f.
Qed.

(** C2: a configuration record converted with [to_dict] and rebuilt with
    [from_dict] is the record it came from, field for field, whatever the
    fields hold, [None] included. *)
Theorem from_dict_to_dict (c : OpenSmileConfig) :
  from_dict (to_dict c) = inr c.
Proof.
  unfold from_dict.
  destruct (decide _) as [_|Hno]; [|destruct Hno; apply to_dict_keys].
  destruct c. unfold to_dict, kwarg. simpl.
  rewrite !asdict_inner_id. reflexivity.
Qed.

Lemma from_dict_TypeError (data : gmap string pyval) :
  from_dict data = inl TypeError <->
  exists k, is_Some (data !! k) /\ k ∉ field_names.
Proof.
  unfold from_dict. destruct (decide _) as [Hall|Hnot]; split.
  - discriminate.
  - intros (k & [v Hv] & Hk). destruct Hk. exact (Hall k v Hv).
  - intros _. apply map_not_Forall in Hnot; [|apply _].
    destruct Hnot as (k & v & Hv & Hk). exists k. split; [by exists v|done].
  - reflexivity.
Qed.

Lemma from_dict_fields (data : gmap string pyval) (c : OpenSmileConfig) :
  from_dict data = inr c ->
  Forall (fun f => f.1.2 c = default f.2 (data !! f.1.1)) OpenSmileConfig_fields.
Proof.
  unfold from_dict. destruct (decide _); [|discriminate].
  intros [= <-]. unfold OpenSmileConfig_fields, kwarg.
  repeat constructor.
Qed.

(** C7, as the code has it: [from_dict] raises the construction error
    exactly when the mapping has a key that is not a field of the record;
    otherwise it returns a record in which every field holds the value the
    mapping gives it, or the default of the field when the mapping has no
    such key.  A missing key is not an error. *)
Theorem from_dict_construction (data : gmap string pyval) :
  (from_dict data = inl TypeError <->
   exists k, is_Some (data !! k) /\ k ∉ field_names) /\
  ((exists k, is_Some (data !! k) /\ k ∉ field_names) \/
   exists c, from_dict data = inr c /\
     Forall (fun f => f.1.2 c = default f.2 (data !! f.1.1))
       OpenSmileConfig_fields).
Proof.
  split; [apply from_dict_TypeError|].
  destruct (from_dict data) as [e|c] eqn:Hfd.
  - left. apply from_dict_TypeError. rewrite Hfd. f_equal.
    unfold from_dict in Hfd. by destruct (decide _); [|injection Hfd as <-].
  - right. exists c. split; [reflexivity|]. by apply from_dict_fields.
Qed.

(** C7, counterexample to the claim as stated: the empty mapping omits every
    field, and [from_dict] returns the configuration of defaults instead of
    raising. *)
Lemma from_dict_missing_keys_accepted :
  (forall k, k ∈ field_names -> (∅ : gmap string pyval) !! k = None) /\
  from_dict ∅ = inr OpenSmileConfig_default /\
  from_dict {[ "loglevel" := PInt 4 ]} =
    inr {| feature_set := PStr "ComParE_2016";
           feature_level := PStr "lld";
           options := PNone;
           loglevel := PInt 4;
           logfile := PNone;
           sampling_rate := PInt 16000;
           channels := PInt 0;
           mixdown := PBool false;
           resample := PBool false;
           num_workers := PInt 1;
           verbose := PBool false |}.
Proof.
  split; [intros k _; apply lookup_empty|].
  split; vm_compute; reflexivity.
Qed.

(** ** The adapter *)

Section AdapterProperties.
Context {engine : Engine}.

Lemma init_not_installed (cfg : option OpenSmileConfig) (st : pystate) :
  "opensmile" ∉ installed st ->
  OpenSmileWrapper_init cfg st =
    (inl (AssertionError (Some install_message)), st).
Proof.
  intros Hno. unfold OpenSmileWrapper_init, bind, FeatureExtractor_init,
    is_module_available, ret. simpl.
  by rewrite bool_decide_eq_false_2.
Qed.

Lemma init_inv (cfg : option OpenSmileConfig) (st st' : pystate)
    (w : OpenSmileWrapper engine) :
  OpenSmileWrapper_init cfg st = (inr w, st') ->
  "opensmile" ∈ installed st /\
  config w = default OpenSmileConfig_default cfg /\
  exists e, Smile (Smile_kwargs (config w)) = inr e /\
            smileExtractor w = Some e.
Proof.
  unfold OpenSmileWrapper_init, bind, FeatureExtractor_init,
    is_module_available, ret, lift, import_module. simpl.
  case_bool_decide as Hin; simpl; [|discriminate].
  destruct (decide ("opensmile" ∈ sys_modules st));
    [|destruct (decide _); [|done]];
    (destruct (Smile _) as [x|sm] eqn:He; simpl; [discriminate|];
     intros [= <- _]; simpl; eauto).
Qed.

Lemma py_eq_int (v : pyval) (r : Z) :
  py_eq v (PInt r) = true <-> v = PInt r \/ v = PBool true /\ r = 1
                              \/ v = PBool false /\ r = 0.
Proof.
  destruct v as [|b|n| | | | |]; cbn [py_eq]; rewrite ?Z.eqb_eq;
    try (split; [discriminate|intros [?|[[? ?]|[? ?]]]; discriminate]).
  - destruct b; cbn [Z.b2z]; split.
    + intros <-. right; left. done.
    + intros [?|[[_ ->]|[? _]]]; done.
    + intros <-. right; right. done.
    + intros [?|[[? _]|[_ ->]]]; done.
  - split; [intros ->; by left|].
    intros [[= ->]|[[? _]|[? _]]]; done.
Qed.

Lemma py_eq_None (v : pyval) : py_eq v PNone = true <-> v = PNone.
Proof. destruct v; simpl; split; done. Qed.

Lemma extract_assertion (w : OpenSmileWrapper engine) (samples : signal)
    (sr : pyval) :
  extract w samples sr = inl (AssertionError None) <->
  py_eq sr (sampling_rate (config w)) = false.
Proof.
  unfold extract, with_extractor, result_bind, engine_call.
  destruct (py_eq _ _); split; try done.
  destruct (smileExtractor w) as [e|]; [|discriminate].
  destruct (Smile_process_signal _ _ _); [discriminate|].
  destruct (to_numpy _); discriminate.
Qed.

Lemma bind_inr_inv {A B} (m : Py A) (k : A -> Py B) (st st' : pystate)
    (b : B) :
  bind m k st = (inr b, st') ->
  exists a st1, m st = (inr a, st1) /\ k a st1 = (inr b, st').
Proof.
  unfold bind. destruct (m st) as [[e|a] st1]; [discriminate|]. eauto.
Qed.

Lemma import_module_inr_inv (m : string) (st st' : pystate) (u : unit) :
  import_module m st = (inr u, st') ->
  FEATURE_EXTRACTORS st' = FEATURE_EXTRACTORS st /\
  installed st' = installed st.
Proof.
  unfold import_module.
  repeat destruct (decide _); intros H; by simplify_eq.
Qed.

Lemma import_module_sys_modules (m x : string) (st : pystate) :
  x <> m ->
  x ∈ sys_modules (import_module m st).2 <-> x ∈ sys_modules st.
Proof.
  intros Hne. unfold import_module.
  repeat destruct (decide _); simpl; try done.
  rewrite elem_of_union, elem_of_singleton. tauto.
Qed.

Lemma bind_sys_modules {A B} (m : Py A) (k : A -> Py B) (x : string) :
  (forall st, x ∈ sys_modules (m st).2 <-> x ∈ sys_modules st) ->
  (forall a st, x ∈ sys_modules (k a st).2 <-> x ∈ sys_modules st) ->
  forall st, x ∈ sys_modules (bind m k st).2 <-> x ∈ sys_modules st.
Proof.
  intros Hm Hk st. unfold bind. specialize (Hm st).
  destruct (m st) as [[e|a] st1]; simpl in *; [done|].
  by rewrite Hk.
Qed.

Lemma module_body_sys_modules (st : pystate) :
  "opensmile" ∈ sys_modules (module_body st).2 <->
  "opensmile" ∈ sys_modules st.
Proof.
  revert st. unfold module_body.
  repeat (apply bind_sys_modules;
          [intros st; by apply import_module_sys_modules|intros _]).
  apply bind_sys_modules; [done|]. done.
Qed.

Lemma module_body_registry (st st' : pystate) :
  module_body st = (inr tt, st') ->
  FEATURE_EXTRACTORS st' =
    <[ "opensmile-wrapper" := OpenSmileWrapper_class ]> (FEATURE_EXTRACTORS st).
Proof.
  unfold module_body. intros H.
  repeat (apply bind_inr_inv in H as (? & ? & [<- _]%import_module_inr_inv & H)).
  apply bind_inr_inv in H as (cls & st1 & Hreg & Hret).
  injection Hret as <-. by injection Hreg as _ <-.
Qed.

Lemma featuresets_names_imports (st : pystate) :
  "opensmile" ∈ installed st ->
  featuresets_names st =
    (inr FeatureSet_members, (import_module "opensmile" st).2) /\
  "opensmile" ∈ sys_modules (featuresets_names st).2.
Proof.
  intros Hin. unfold featuresets_names, bind, is_module_available. simpl.
  rewrite bool_decide_eq_true_2 by done. simpl.
  unfold import_module.
  destruct (decide ("opensmile" ∈ sys_modules st)); simpl; [done|].
  destruct (decide _); [|done]. simpl. split; [done|].
  apply elem_of_union_l. by apply elem_of_singleton.
Qed.

(** C1: on an adapter built from a configuration whose [sampling_rate] is
    the integer [r], [extract] fails its assertion exactly when the
    [sampling_rate] argument differs from [r] (for every integer argument,
    and for every argument under Python's [==]); and whenever [extract]
    returns an array, the engine was called with the very argument of the
    caller, which equals [r]: nothing is coerced or resampled. *)
Theorem extract_sampling_rate_contract (cfg : OpenSmileConfig) (r : Z)
    (st st' : pystate) (w : OpenSmileWrapper engine) (samples : signal) :
  OpenSmileWrapper_init (Some cfg) st = (inr w, st') ->
  sampling_rate cfg = PInt r ->
  (forall n, extract w samples (PInt n) = inl (AssertionError None)
             <-> n <> r) /\
  (forall v, extract w samples v = inl (AssertionError None)
             <-> py_eq v (PInt r) = false) /\
  (forall v a, extract w samples v = inr a ->
     py_eq v (PInt r) = true /\
     exists e df, smileExtractor w = Some e /\
                  Smile_process_signal e samples v = inr df /\
                  to_numpy df = inr a).
Proof.
  intros (_ & Hcfg & e & _ & He)%init_inv Hr. simpl in Hcfg.
  assert (Hrate : sampling_rate (config w) = PInt r) by (by rewrite Hcfg).
  split; [|split].
  - intros n. rewrite extract_assertion, Hrate. simpl.
    by rewrite Z.eqb_neq.
  - intros v. by rewrite extract_assertion, Hrate.
  - intros v a. unfold extract, with_extractor, result_bind, engine_call.
    rewrite Hrate, He. destruct (py_eq v (PInt r)); [|discriminate].
    destruct (Smile_process_signal e samples v) as [x|df] eqn:Hps;
      [discriminate|].
    destruct (to_numpy df) as [x|a'] eqn:Hnp; [discriminate|].
    intros [= <-]. split; [done|]. by exists e, df.
Qed.

(** C3: [frame_shift] is 0 on every adapter. *)
Theorem frame_shift_zero (w : OpenSmileWrapper engine) : frame_shift w = 0.
Proof. reflexivity. Qed.

(** C4: [feature_dim] is 0 on every adapter and for every argument. *)
Theorem feature_dim_zero (w : OpenSmileWrapper engine) (sr : pyval) :
  feature_dim w sr = 0.
Proof. reflexivity. Qed.

(** C5: when the package [opensmile] is not installed, [featuresets_names]
    and the construction of an adapter both fail the assertion whose
    message tells the caller to [pip install opensmile], and leave the
    interpreter as it was.  Executing the module itself never imports
    [opensmile]; [featuresets_names], once the package is installed, does. *)
Theorem missing_dependency (cfg : option OpenSmileConfig) (st : pystate) :
  "opensmile" ∉ installed st ->
  featuresets_names st = (inl (AssertionError (Some install_message)), st) /\
  OpenSmileWrapper_init cfg st =
    (inl (AssertionError (Some install_message)), st) /\
  String.substring 37 21 install_message = "pip install opensmile" /\
  (forall st0, "opensmile" ∈ sys_modules (module_body st0).2 <->
               "opensmile" ∈ sys_modules st0) /\
  (forall st0, "opensmile" ∈ installed st0 ->
               "opensmile" ∈ sys_modules (featuresets_names st0).2).
Proof.
  intros Hno. split; [|split; [|split; [|split]]].
  - unfold featuresets_names, bind, is_module_available. simpl.
    by rewrite bool_decide_eq_false_2.
  - by apply init_not_installed.
  - reflexivity.
  - apply module_body_sys_modules.
  - intros st0 Hin. by apply featuresets_names_imports.
Qed.

(** C6: on a constructed adapter and with a [sampling_rate] argument equal
    to the configured one, [extract] is the engine's [process_signal] on
    the same buffer and rate followed by [to_numpy], and nothing else: an
    exception of either call comes out unchanged, and otherwise the array
    of [to_numpy] is returned as it is. *)
Theorem extract_forwards (cfg : option OpenSmileConfig) (st st' : pystate)
    (w : OpenSmileWrapper engine) (samples : signal) (sr : pyval) :
  OpenSmileWrapper_init cfg st = (inr w, st') ->
  py_eq sr (sampling_rate (config w)) = true ->
  exists e, Smile (Smile_kwargs (config w)) = inr e /\
            smileExtractor w = Some e /\
            extract w samples sr =
              match Smile_process_signal e samples sr with
              | inl x => inl (Raised x)
              | inr df =>
                  match to_numpy df with
                  | inl x => inl (Raised x)
                  | inr a => inr a
                  end
              end.
Proof.
  intros (_ & _ & e & Hsm & He)%init_inv Heq. exists e.
  split; [done|]. split; [done|].
  unfold extract, with_extractor, result_bind, engine_call.
  rewrite Heq, He. destruct (Smile_process_signal e samples sr); done.
Qed.

(** C8: on a constructed adapter, [feature_names] is the engine instance's
    own [feature_names], the same names in the same order; the instance is
    the one the engine built from the configuration of the adapter. *)
Theorem feature_names_forwards (cfg : option OpenSmileConfig)
    (st st' : pystate) (w : OpenSmileWrapper engine) :
  OpenSmileWrapper_init cfg st = (inr w, st') ->
  exists e, Smile (Smile_kwargs (config w)) = inr e /\
            smileExtractor w = Some e /\
            feature_names w =
              match Smile_feature_names e with
              | inl x => inl (Raised x)
              | inr names => inr names
              end.
Proof.
  intros (_ & _ & e & Hsm & He)%init_inv. exists e.
  split; [done|]. split; [done|].
  unfold feature_names, with_extractor, engine_call. by rewrite He.
Qed.

(** C9: once the module has been executed, the registry resolves the name
    [opensmile-wrapper] to the adapter class, whose [name] is that name and
    whose [config_type] is [OpenSmileConfig]; no other name of the registry
    is touched. *)
Theorem module_registers_adapter (st st' : pystate) :
  module_body st = (inr tt, st') ->
  get_extractor_type "opensmile-wrapper" st' = Some OpenSmileWrapper_class /\
  name OpenSmileWrapper_class = "opensmile-wrapper" /\
  config_type OpenSmileWrapper_class = "OpenSmileConfig" /\
  (forall n, n <> "opensmile-wrapper" ->
             get_extractor_type n st' = get_extractor_type n st).
Proof.
  intros Hreg%module_body_registry. unfold get_extractor_type.
  rewrite Hreg. split; [apply lookup_insert_eq|].
  split; [done|]. split; [done|].
  intros n Hn. by apply lookup_insert_ne.
Qed.

(** C10: on an adapter built from a configuration whose [sampling_rate] is
    [None], [extract] fails its assertion for every integer
    [sampling_rate] argument; the only argument that passes the assertion
    is [None] itself. *)
Theorem extract_without_configured_rate (cfg : OpenSmileConfig)
    (st st' : pystate) (w : OpenSmileWrapper engine) (samples : signal) :
  OpenSmileWrapper_init (Some cfg) st = (inr w, st') ->
  sampling_rate cfg = PNone ->
  (forall n, extract w samples (PInt n) = inl (AssertionError None)) /\
  (forall v, extract w samples v <> inl (AssertionError None) <-> v = PNone).
Proof.
  intros (_ & Hcfg & _)%init_inv Hr. simpl in Hcfg.
  assert (Hrate : sampling_rate (config w) = PNone) by (by rewrite Hcfg).
  split.
  - intros n. by rewrite extract_assertion, Hrate.
  - intros v. rewrite extract_assertion, Hrate, <- py_eq_None.
    destruct (py_eq v PNone); split; done.
Qed.

End AdapterProperties.

(** ** The properties on the sample engine *)

Lemma init_8k :
  OpenSmileWrapper_init (Some config_8k) sample_state =
    (inr wrapper_8k, sample_state_ready).
Proof. vm_compute. reflexivity. Defined.

Lemma init_any_rate :
  OpenSmileWrapper_init (Some config_any_rate) sample_state =
    (inr wrapper_any_rate, sample_state_ready).
Proof. vm_compute. reflexivity. Defined.

(** C1 on the sample adapter configured for 8000 Hz. *)
Lemma extract_sampling_rate_contract_witness :
  (forall n, extract wrapper_8k [1; 2; 3] (PInt n) = inl (AssertionError None)
             <-> n <> 8000) /\
  (forall v, extract wrapper_8k [1; 2; 3] v = inl (AssertionError None)
             <-> py_eq v (PInt 8000) = false) /\
  (forall v a, extract wrapper_8k [1; 2; 3] v = inr a ->
     py_eq v (PInt 8000) = true /\
     exists e df, smileExtractor wrapper_8k = Some e /\
                  Smile_process_signal e [1; 2; 3] v = inr df /\
                  to_numpy df = inr a).
Proof.
  exact (extract_sampling_rate_contract config_8k 8000 sample_state
           sample_state_ready wrapper_8k [1; 2; 3] init_8k eq_refl).
Defined.

(** C5 on an interpreter with no package installed. *)
Lemma missing_dependency_witness :
  ("opensmile" ∉ installed bare_state) /\
  featuresets_names (engine := sample_engine) bare_state =
    (inl (AssertionError (Some install_message)), bare_state) /\
  OpenSmileWrapper_init (engine := sample_engine) (Some config_8k) bare_state =
    (inl (AssertionError (Some install_message)), bare_state).
Proof.
  assert (Hno : "opensmile" ∉ installed bare_state)
    by (simpl; apply not_elem_of_empty).
  split; [exact Hno|].
  destruct (missing_dependency (engine := sample_engine)
              (Some config_8k) bare_state Hno) as (Hf & Hi & _).
  split; [exact Hf|exact Hi].
Defined.

(** C6 on the sample adapter, called at its configured rate. *)
Lemma extract_forwards_witness :
  py_eq (PInt 8000) (sampling_rate (config wrapper_8k)) = true /\
  exists e, Smile (Smile_kwargs (config wrapper_8k)) = inr e /\
            smileExtractor wrapper_8k = Some e /\
            extract wrapper_8k [1; 2; 3] (PInt 8000) =
              match Smile_process_signal e [1; 2; 3] (PInt 8000) with
              | inl x => inl (Raised x)
              | inr df =>
                  match to_numpy df with
                  | inl x => inl (Raised x)
                  | inr a => inr a
                  end
              end.
Proof.
  split; [reflexivity|].
  exact (extract_forwards (Some config_8k) sample_state sample_state_ready
           wrapper_8k [1; 2; 3] (PInt 8000) init_8k eq_refl).
Defined.

(** C8 on the sample adapter. *)
Lemma feature_names_forwards_witness :
  exists e, Smile (Smile_kwargs (config wrapper_8k)) = inr e /\
            smileExtractor wrapper_8k = Some e /\
            feature_names wrapper_8k =
              match Smile_feature_names e with
              | inl x => inl (Raised x)
              | inr names => inr names
              end.
Proof.
  exact (feature_names_forwards (Some config_8k) sample_state
           sample_state_ready wrapper_8k init_8k).
Defined.

Lemma module_body_loadable :
  module_body loadable_state = (inr tt, loaded_state).
Proof. vm_compute. reflexivity. Defined.

(** C9 on an interpreter that can load the module. *)
Lemma module_registers_adapter_witness :
  get_extractor_type "opensmile-wrapper" loaded_state =
    Some OpenSmileWrapper_class /\
  name OpenSmileWrapper_class = "opensmile-wrapper" /\
  config_type OpenSmileWrapper_class = "OpenSmileConfig" /\
  (forall n, n <> "opensmile-wrapper" ->
             get_extractor_type n loaded_state =
             get_extractor_type n loadable_state).
Proof.
  exact (module_registers_adapter loadable_state loaded_state
           module_body_loadable).
Defined.

(** C10 on the sample adapter configured without a rate. *)
Lemma extract_without_configured_rate_witness :
  (forall n, extract wrapper_any_rate [1; 2; 3] (PInt n) =
             inl (AssertionError None)) /\
  (forall v, extract wrapper_any_rate [1; 2; 3] v <> inl (AssertionError None)
             <-> v = PNone).
Proof.
  exact (extract_without_configured_rate config_any_rate sample_state
           sample_state_ready wrapper_any_rate [1; 2; 3] init_any_rate eq_refl).
Defined.

(** The sample adapter at work: a call at the configured rate returns the
    array of the engine, a call at another rate fails the assertion. *)
Example extract_8k_runs :
  extract wrapper_8k [1; 2; 3] (PInt 8000) = inr [[1; 2; 3]; [1; 2; 3]] /\
  extract wrapper_8k [1; 2; 3] (PInt 16000) = inl (AssertionError None) /\
  feature_names wrapper_8k = inr ["F0final_sma"; "pcm_RMSenergy_sma"] /\
  frame_shift wrapper_8k = 0 /\
  feature_dim wrapper_8k (PInt 8000) = 0.
Proof. repeat split. Qed.

Example from_dict_unknown_key :
  from_dict {[ "sample_rate" := PInt 8000 ]} = inl TypeError.
Proof. vm_compute. reflexivity. Qed.

Example from_dict_to_dict_8k : from_dict (to_dict config_8k) = inr config_8k.
Proof. vm_compute. reflexivity. Qed.

(** * Further properties of the code *)

(** ** The dictionary of a configuration *)

Lemma fields_default :
  Forall (fun f => f.1.2 OpenSmileConfig_default = f.2) OpenSmileConfig_fields.
Proof. repeat constructor. Qed.

Lemma to_dict_field_lookup (c : OpenSmileConfig) :
  Forall (fun f => to_dict c !! f.1.1 = Some (f.1.2 c)) OpenSmileConfig_fields.
Proof.
  destruct c. unfold to_dict. simpl. rewrite !asdict_inner_id.
  repeat constructor.
Qed.

Lemma to_dict_dom (c : OpenSmileConfig) :
  dom (to_dict c) = list_to_set field_names.
Proof. unfold to_dict. rewrite dom_list_to_map_L. reflexivity. Qed.

Lemma to_dict_lookup_None (c : OpenSmileConfig) (k : string) :
  k ∉ field_names -> to_dict c !! k = None.
Proof.
  intros Hk. apply not_elem_of_dom. rewrite to_dict_dom.
  by rewrite elem_of_list_to_set.
Qed.

Lemma field_of_name (k : string) :
  k ∈ field_names -> exists f, f ∈ OpenSmileConfig_fields /\ f.1.1 = k.
Proof.
  unfold field_names. intros (f & -> & Hf)%list_elem_of_fmap. eauto.
Qed.

Lemma from_dict_inr_keys (data : gmap string pyval) (c : OpenSmileConfig) :
  from_dict data = inr c -> map_Forall (fun k _ => k ∈ field_names) data.
Proof. unfold from_dict. by destruct (decide _). Qed.

Lemma from_dict_keys_inr (data : gmap string pyval) :
  map_Forall (fun k _ => k ∈ field_names) data ->
  exists c, from_dict data = inr c.
Proof. intros H. unfold from_dict. destruct (decide _); [eauto|done]. Qed.

Lemma to_dict_from_dict_lookup (data : gmap string pyval)
    (c : OpenSmileConfig) (k : string) :
  from_dict data = inr c ->
  to_dict c !! k =
    match data !! k with
    | Some v => Some v
    | None => to_dict OpenSmileConfig_default !! k
    end.
Proof.
  intros Hfd. destruct (decide (k ∈ field_names)) as [Hk|Hk].
  - apply field_of_name in Hk as (f & Hf & <-).
    pose proof (to_dict_field_lookup c) as Hc.
    pose proof (to_dict_field_lookup OpenSmileConfig_default) as Hd.
    pose proof fields_default as Hdef.
    pose proof (from_dict_fields data c Hfd) as Hv.
    rewrite Forall_forall in Hc, Hd, Hdef, Hv.
    rewrite (Hc f Hf), (Hd f Hf), (Hdef f Hf), (Hv f Hf).
    by destruct (data !! f.1.1).
  - rewrite !to_dict_lookup_None by done.
    destruct (data !! k) as [v|] eqn:Hv; [|done].
    destruct Hk. exact (from_dict_inr_keys data c Hfd k v Hv).
Qed.

(** X1: the dictionary of a configuration has exactly the eleven field
    names as its keys, each bound to the value of the field as it is; a
    field that holds [None] keeps its key. *)
Theorem to_dict_all_fields (c : OpenSmileConfig) :
  dom (to_dict c) = list_to_set field_names /\
  size (to_dict c) = 11%nat /\
  Forall (fun f => to_dict c !! f.1.1 = Some (f.1.2 c)) OpenSmileConfig_fields.
Proof.
  split; [apply to_dict_dom|]. split; [|apply to_dict_field_lookup].
  unfold to_dict. rewrite <- size_dom, dom_list_to_map_L. reflexivity.
Qed.

(** X2: a mapping that [from_dict] accepts comes back from [to_dict]
    completed with the defaults: the keys it had keep their values, and
    every field it did not mention appears with the default of the field. *)
Theorem to_dict_from_dict_defaults (data : gmap string pyval)
    (c : OpenSmileConfig) :
  from_dict data = inr c ->
  to_dict c = data ∪ to_dict OpenSmileConfig_default.
Proof.
  intros Hfd. apply map_eq. intros k.
  rewrite (to_dict_from_dict_lookup data c k Hfd), lookup_union.
  destruct (data !! k), (to_dict OpenSmileConfig_default !! k); done.
Qed.

(** X3: for a mapping that [from_dict] accepts, [to_dict] gives back the
    very mapping exactly when the mapping binds every field of the
    record. *)
Theorem to_dict_from_dict_complete (data : gmap string pyval)
    (c : OpenSmileConfig) :
  from_dict data = inr c ->
  (to_dict c = data <-> forall k, k ∈ field_names -> is_Some (data !! k)).
Proof.
  intros Hfd. split.
  - intros <- k (f & Hf & <-)%field_of_name.
    pose proof (to_dict_field_lookup c) as Hc. rewrite Forall_forall in Hc.
    rewrite (Hc f Hf). eauto.
  - intros Hall. apply map_eq. intros k.
    rewrite (to_dict_from_dict_lookup data c k Hfd).
    destruct (data !! k) as [v|] eqn:Hv; [done|].
    destruct (decide (k ∈ field_names)) as [Hk|Hk].
    + apply Hall in Hk as [v Hv']. congruence.
    + by apply to_dict_lookup_None.
Qed.

(** X4: binding one field in an accepted mapping changes that field of the
    record [from_dict] builds and no other. *)
Theorem from_dict_insert_field (data : gmap string pyval)
    (c : OpenSmileConfig) (k : string) (v : pyval) :
  from_dict data = inr c ->
  k ∈ field_names ->
  exists c', from_dict (<[ k := v ]> data) = inr c' /\
    Forall (fun f => f.1.2 c' = if decide (f.1.1 = k) then v else f.1.2 c)
      OpenSmileConfig_fields.
Proof.
  intros Hfd Hk.
  destruct (from_dict_keys_inr (<[ k := v ]> data)) as [c' Hc'].
  { apply map_Forall_insert_2; [done|]. by eapply from_dict_inr_keys. }
  exists c'. split; [done|].
  pose proof (from_dict_fields _ _ Hfd) as Hv.
  pose proof (from_dict_fields _ _ Hc') as Hv'.
  rewrite Forall_forall in Hv, Hv'. apply Forall_forall. intros f Hf.
  rewrite (Hv' f Hf). destruct (decide (f.1.1 = k)) as [->|Hne].
  - by rewrite lookup_insert_eq.
  - rewrite lookup_insert_ne by done. by rewrite (Hv f Hf).
Qed.

(** ** Construction, the import system and the failures of the adapter *)

Section AdapterOutcomes.
Context {engine : Engine}.



Lemma import_module_available (m : string) (st : pystate) :
  m ∈ installed st \/ m ∈ sys_modules st ->
  exists st1, import_module m st = (inr tt, st1) /\
              installed st1 = installed st /\
              FEATURE_EXTRACTORS st1 = FEATURE_EXTRACTORS st /\
              sys_modules st1 = {[ m ]} ∪ sys_modules st.
Proof.
  intros Hav. unfold import_module.
  destruct (decide (m ∈ sys_modules st)) as [Hc|Hc].
  - exists st. repeat split. symmetry. apply subseteq_union_1_L.
    by apply singleton_subseteq_l.
  - destruct (decide (m ∈ installed st)) as [Hi|Hi]; [|by destruct Hav].
    eexists. repeat split.
Qed.



Lemma init_installed (cfg : OpenSmileConfig) (st : pystate) :
  "opensmile" ∈ installed st ->
  OpenSmileWrapper_init (Some cfg) st =
    match Smile (Smile_kwargs cfg) with
    | inl x => (inl (Raised x), (import_module "opensmile" st).2)
    | inr e => (inr (mkOpenSmileWrapper cfg (Some e)),
                (import_module "opensmile" st).2)
    end.
Proof.
  intros Hin.
  destruct (import_module_available "opensmile" st (or_introl Hin))
    as (st1 & Himp & _).
  unfold OpenSmileWrapper_init, bind, FeatureExtractor_init,
    is_module_available, ret, lift. simpl.
  rewrite bool_decide_eq_true_2 by done. simpl. rewrite Himp. simpl.
  by destruct (Smile _).
Qed.

Lemma Smile_kwargs_to_dict (c : OpenSmileConfig) :
  NoDup (Smile_kwargs c).*1 /\
  (list_to_map (Smile_kwargs c) : gmap string pyval) = to_dict c.
Proof.
  split.
  - apply (bool_decide_eq_true_1 _). vm_compute. reflexivity.
  - destruct c. unfold to_dict. simpl. rewrite !asdict_inner_id.
    reflexivity.
Qed.

(** X5: the engine of a constructed adapter was built from keyword
    arguments that name every field of the configuration once and carry
    the values of the fields as they are: as a mapping, the keyword
    arguments are the dictionary [to_dict] gives for the configuration. *)
Theorem init_engine_kwargs (cfg : option OpenSmileConfig) (st st' : pystate)
    (w : OpenSmileWrapper engine) :
  OpenSmileWrapper_init cfg st = (inr w, st') ->
  exists kw e, Smile kw = inr e /\ smileExtractor w = Some e /\
               NoDup kw.*1 /\
               (list_to_map kw : gmap string pyval) = to_dict (config w).
Proof.
  intros (_ & _ & e & Hsm & He)%init_inv.
  exists (Smile_kwargs (config w)), e.
  destruct (Smile_kwargs_to_dict (config w)). done.
Qed.

(** X6: with the package installed, construction passes the dependency
    check and its outcome is the engine's: an exception of [opensmile.Smile]
    comes out unchanged, and otherwise the adapter holds the given
    configuration and the engine instance.  Either way [opensmile] is
    imported afterwards, and the installed packages and the extractor
    registry are as before. *)
Theorem init_outcome (cfg : OpenSmileConfig) (st : pystate) :
  "opensmile" ∈ installed st ->
  exists st1,
    installed st1 = installed st /\
    FEATURE_EXTRACTORS st1 = FEATURE_EXTRACTORS st /\
    sys_modules st1 = {[ "opensmile" ]} ∪ sys_modules st /\
    OpenSmileWrapper_init (Some cfg) st =
      match Smile (Smile_kwargs cfg) with
      | inl x => (inl (Raised x), st1)
      | inr e => (inr (mkOpenSmileWrapper cfg (Some e)), st1)
      end.
Proof.
  intros Hin.
  destruct (import_module_available "opensmile" st (or_introl Hin))
    as (st1 & Himp & Hi & Hr & Hs).
  exists st1. repeat (split; [done|]).
  rewrite (init_installed cfg st Hin). by rewrite Himp.
Qed.

(** X7: once [featuresets_names] has returned, it returns the same names
    again without changing the interpreter any further, and the
    construction of an adapter no longer fails the dependency check. *)
Theorem featuresets_names_then (st st' : pystate) (names : list string)
    (cfg : OpenSmileConfig) :
  featuresets_names st = (inr names, st') ->
  names = FeatureSet_members /\
  featuresets_names st' = (inr names, st') /\
  (OpenSmileWrapper_init (Some cfg) st').1 <>
    inl (AssertionError (Some install_message)).
Proof.
  intros H.
  destruct (decide ("opensmile" ∈ installed st)) as [Hin|Hno].
  - destruct (featuresets_names_imports st Hin) as [Heq Hmod].
    rewrite H in Heq, Hmod. simpl in Hmod. injection Heq as -> ->.
    destruct (import_module_available "opensmile" st (or_introl Hin))
      as (st1 & Himp & Hi & _). rewrite Himp in *. simpl in *.
    assert (Hin1 : "opensmile" ∈ installed st1) by (by rewrite Hi).
    split; [done|]. split.
    + destruct (featuresets_names_imports st1 Hin1) as [-> _].
      unfold import_module. by destruct (decide _).
    + rewrite (init_installed cfg st1 Hin1). by destruct (Smile _).
  - unfold featuresets_names, bind, is_module_available in H. simpl in H.
    by rewrite bool_decide_eq_false_2 in H.
Qed.

(** X8: when [extract] fails on a constructed adapter, the failure is
    either the adapter's own assertion, and then the argument differs from
    the configured rate, or the very exception that the engine raised in
    [process_signal] or in [to_numpy]; it is never anything else. *)
Theorem extract_failures (cfg : option OpenSmileConfig) (st st' : pystate)
    (w : OpenSmileWrapper engine) (samples : signal) (sr : pyval)
    (f : failure) :
  OpenSmileWrapper_init cfg st = (inr w, st') ->
  extract w samples sr = inl f ->
  (f = AssertionError None /\ py_eq sr (sampling_rate (config w)) = false) \/
  (py_eq sr (sampling_rate (config w)) = true /\
   exists e x, smileExtractor w = Some e /\ f = Raised x /\
     (Smile_process_signal e samples sr = inl x \/
      exists df, Smile_process_signal e samples sr = inr df /\
                 to_numpy df = inl x)).
Proof.
  intros (_ & _ & e & _ & He)%init_inv.
  unfold extract, with_extractor, result_bind, engine_call. rewrite He.
  destruct (py_eq _ _); [|intros [= <-]; by left].
  intros H. right. split; [done|].
  destruct (Smile_process_signal e samples sr) as [x|df] eqn:Hps.
  - injection H as <-. exists e, x. repeat (split; [done|]). by left.
  - destruct (to_numpy df) as [x|a] eqn:Hnp; [|discriminate].
    injection H as <-. exists e, x. repeat (split; [done|]).
    right. by exists df.
Qed.




End AdapterOutcomes.

(** ** The further properties on the sample engines *)

Lemma from_dict_partial : from_dict partial_mapping = inr config_partial.
Proof. vm_compute. reflexivity. Defined.

Lemma from_dict_full : from_dict (to_dict config_8k) = inr config_8k.
Proof. vm_compute. reflexivity. Defined.

Lemma loglevel_is_field : "loglevel" ∈ field_names.
Proof. apply (bool_decide_eq_true_1 _). vm_compute. reflexivity. Defined.

Lemma init_strict :
  OpenSmileWrapper_init (Some OpenSmileConfig_default) sample_state =
    (inr wrapper_strict, sample_state_ready).
Proof. vm_compute. reflexivity. Defined.

Lemma opensmile_installed : "opensmile" ∈ installed sample_state.
Proof. apply (bool_decide_eq_true_1 _). vm_compute. reflexivity. Defined.

Lemma featuresets_names_sample :
  featuresets_names (engine := sample_engine) sample_state =
    (inr ["ComParE_2016"; "GeMAPSv01b"; "eGeMAPSv02"], sample_state_ready).
Proof. vm_compute. reflexivity. Defined.

Lemma extract_strict_empty :
  extract wrapper_strict [] (PInt 16000) =
    inl (Raised (EngineExn "RuntimeError" [PStr "empty signal"])).
Proof. reflexivity. Defined.



(** X2 on a mapping that binds two fields. *)
Lemma to_dict_from_dict_defaults_witness :
  to_dict config_partial = partial_mapping ∪ to_dict OpenSmileConfig_default.
Proof.
  exact (to_dict_from_dict_defaults partial_mapping config_partial
           from_dict_partial).
Defined.

(** X3 on the dictionary of a configuration. *)
Lemma to_dict_from_dict_complete_witness :
  to_dict config_8k = to_dict config_8k <->
  forall k, k ∈ field_names -> is_Some (to_dict config_8k !! k).
Proof.
  exact (to_dict_from_dict_complete (to_dict config_8k) config_8k
           from_dict_full).
Defined.

(** X4: binding [loglevel] in a mapping that did not mention it. *)
Lemma from_dict_insert_field_witness :
  exists c', from_dict (<[ "loglevel" := PInt 5 ]> partial_mapping) = inr c' /\
    Forall (fun f => f.1.2 c' = if decide (f.1.1 = "loglevel") then PInt 5
                                else f.1.2 config_partial)
      OpenSmileConfig_fields.
Proof.
  exact (from_dict_insert_field partial_mapping config_partial "loglevel"
           (PInt 5) from_dict_partial loglevel_is_field).
Defined.

(** X5 on the sample adapter. *)
Lemma init_engine_kwargs_witness :
  exists kw e, Smile kw = inr e /\ smileExtractor wrapper_8k = Some e /\
               NoDup kw.*1 /\
               (list_to_map kw : gmap string pyval) =
                 to_dict (config wrapper_8k).
Proof.
  exact (init_engine_kwargs (Some config_8k) sample_state sample_state_ready
           wrapper_8k init_8k).
Defined.

(** X6 on the strict engine, which refuses the feature set of the
    configuration. *)
Lemma init_outcome_witness :
  exists st1,
    installed st1 = installed sample_state /\
    FEATURE_EXTRACTORS st1 = FEATURE_EXTRACTORS sample_state /\
    sys_modules st1 = {[ "opensmile" ]} ∪ sys_modules sample_state /\
    OpenSmileWrapper_init (engine := strict_engine) (Some config_8k)
      sample_state =
      match Smile (Smile_kwargs config_8k) with
      | inl x => (inl (Raised x), st1)
      | inr e => (inr (mkOpenSmileWrapper config_8k (Some e)), st1)
      end.
Proof.
  exact (init_outcome (engine := strict_engine) config_8k sample_state
           opensmile_installed).
Defined.

(** X7 on the sample engine. *)
Lemma featuresets_names_then_witness :
  ["ComParE_2016"; "GeMAPSv01b"; "eGeMAPSv02"] =
    FeatureSet_members (Engine := sample_engine) /\
  featuresets_names (engine := sample_engine) sample_state_ready =
    (inr ["ComParE_2016"; "GeMAPSv01b"; "eGeMAPSv02"], sample_state_ready) /\
  (OpenSmileWrapper_init (engine := sample_engine) (Some config_8k)
     sample_state_ready).1 <> inl (AssertionError (Some install_message)).
Proof.
  exact (featuresets_names_then (engine := sample_engine) sample_state
           sample_state_ready _ config_8k featuresets_names_sample).
Defined.

(** X8 on the strict engine, which refuses an empty signal. *)
Lemma extract_failures_witness :
  (Raised (EngineExn "RuntimeError" [PStr "empty signal"])
     = AssertionError None /\
   py_eq (PInt 16000) (sampling_rate (config wrapper_strict)) = false) \/
  (py_eq (PInt 16000) (sampling_rate (config wrapper_strict)) = true /\
   exists e x, smileExtractor wrapper_strict = Some e /\
     Raised (EngineExn "RuntimeError" [PStr "empty signal"]) = Raised x /\
     (Smile_process_signal e [] (PInt 16000) = inl x \/
      exists df, Smile_process_signal e [] (PInt 16000) = inr df /\
                 to_numpy df = inl x)).
Proof.
  exact (extract_failures (Some OpenSmileConfig_default) sample_state
           sample_state_ready wrapper_strict [] (PInt 16000) _
           init_strict extract_strict_empty).
Defined.


